(** * Host-side serial protocol driver of the UKMarsBot Pi Zero controller

    A shallow embedding of [pi_software/robot_control.py] (a Python 3
    script, see its interpreter line) and the properties of its reply
    handling and of its reset sequence.

    The serial port is the only collaborator.  It is modelled by what it
    hands back: [port_rx] is the list of results of the successive
    line reads ([read_until(expected=NEWLINE)], and the [readline] calls
    made by [readlines]), oldest first; when the list is exhausted the
    device is silent and every further read times out with [b""].
    [port_tx] logs what was written.  Real time is not modelled:
    [time.sleep] only keeps its place in the sequence. *)

From Stdlib Require Import List String ZArith Lia Bool.
From Stdlib Require Import Strings.Byte.
Import ListNotations.

Local Open Scope Z_scope.

(** ** Python values *)

Definition bytes := list byte.

(** A [bytes] literal. *)
Definition bytes_lit (s : string) : bytes := list_byte_of_string s.

(** The two kinds of object the script compares with [==]: indexing a
    [bytes] object gives an [int], slicing it gives [bytes]. *)
Inductive pyval : Type :=
| PyInt (n : Z)
| PyBytes (b : bytes).

Fixpoint bytes_eqb (x y : bytes) : bool :=
  match x, y with
  | [], [] => true
  | a :: x', c :: y' => Byte.eqb a c && bytes_eqb x' y'
  | _, _ => false
  end.

(** [x == y]: objects of different types are never equal. *)
Definition py_eq (x y : pyval) : bool :=
  match x, y with
  | PyInt a, PyInt c => a =? c
  | PyBytes a, PyBytes c => bytes_eqb a c
  | _, _ => false
  end.

(** [data.startswith(prefix)] *)
Fixpoint startswith (data prefix : bytes) : bool :=
  match prefix, data with
  | [], _ => true
  | p :: prefix', d :: data' => Byte.eqb d p && startswith data' prefix'
  | _ :: _, [] => false
  end.

(** [sub in data] *)
Fixpoint bytes_in (sub data : bytes) : bool :=
  startswith data sub ||
  match data with
  | [] => false
  | _ :: data' => bytes_in sub data'
  end.

(** [data[-1:]] *)
Definition slice_last (data : bytes) : bytes :=
  skipn (List.length data - 1)%nat data.

Definition is_space (c : byte) : bool :=
  match c with
  | x20 | x09 | x0a | x0b | x0c | x0d => true
  | _ => false
  end.

Fixpoint lstrip (data : bytes) : bytes :=
  match data with
  | c :: data' => if is_space c then lstrip data' else data
  | [] => []
  end.

(** [data.rstrip()] *)
Definition rstrip (data : bytes) : bytes := rev (lstrip (rev data)).

(** ** Constants, commands and responses *)

Definition NEWLINE : bytes := [x0a].

Definition RESET_STATE_COMMAND : bytes := bytes_lit "^" ++ NEWLINE.
Definition SHOW_VERSION_COMMAND : bytes := bytes_lit "v" ++ NEWLINE.
Definition VERBOSE_OFF_COMMAND : bytes := bytes_lit "V0" ++ NEWLINE.
Definition VERBOSE_ON_COMMAND : bytes := bytes_lit "V1" ++ NEWLINE.
Definition ECHO_OFF_COMMAND : bytes := bytes_lit "E0" ++ NEWLINE.
Definition ECHO_ON_COMMAND : bytes := bytes_lit "E1" ++ NEWLINE.
Definition OK_COMMAND : bytes := bytes_lit "?" ++ NEWLINE.
Definition HELP_COMMAND : bytes := bytes_lit "h" ++ NEWLINE.
Definition SWITCH_READ_COMMAND : bytes := bytes_lit "s" ++ NEWLINE.
Definition BATTERY_READ_COMMAND : bytes := bytes_lit "b" ++ NEWLINE.
Definition MOTOR_ACTION_STOP_COMMAND : bytes := bytes_lit "x" ++ NEWLINE.

Definition CONTROL_C_ETX : bytes := [x03].
Definition CONTROL_X_CAN : bytes := [x18].

Definition UNSOLICITED_PREFIX : bytes := bytes_lit "@".
Definition ERROR_PREFIX : bytes := bytes_lit "@Error:".
Definition RESET_STATE_RETURN : bytes := bytes_lit "RST".
Definition OK_RESULT_VERBOSE : bytes := bytes_lit "OK".
Definition OK_RESULT_NUMERIC : bytes := ERROR_PREFIX ++ bytes_lit "0".

(** ** Exceptions *)

Inductive exn : Type :=
| SoftReset
| ShutdownRequest
| MajorError (msg : string)
| SerialSyncError (msg : string)
| IndexError.

(** ** The process state *)

(** One argument of a [print] call. *)
Inductive printed : Type :=
| PStr (s : string)
| PBytes (b : bytes).

Record state : Type := mkState {
  port_rx : list bytes;             (* results of the line reads to come *)
  port_tx : list bytes;             (* what [port.write] sent, oldest first *)
  stdout : list (list printed);     (* the [print] calls, oldest first *)
  numeric_error_codes : bool;       (* global *)
  echo_on : bool                    (* global *)
}.

Definition set_port_rx (r : list bytes) (s : state) : state :=
  mkState r (port_tx s) (stdout s) (numeric_error_codes s) (echo_on s).

Definition set_port_tx (t : list bytes) (s : state) : state :=
  mkState (port_rx s) t (stdout s) (numeric_error_codes s) (echo_on s).

Definition set_stdout (o : list (list printed)) (s : state) : state :=
  mkState (port_rx s) (port_tx s) o (numeric_error_codes s) (echo_on s).

Definition set_echo_flag (e : bool) (s : state) : state :=
  mkState (port_rx s) (port_tx s) (stdout s) (numeric_error_codes s) e.

(** The globals as the module initialises them. *)
Definition initial_state (rx : list bytes) : state :=
  mkState rx [] [] false true.

(** ** Computations: state, exceptions and unbounded loops *)

Inductive outcome (A : Type) : Type :=
| Ok (a : A)          (* returned *)
| Raise (e : exn)     (* an exception left the call *)
| Diverge.            (* a loop used up its fuel *)

Arguments Ok {A} a.
Arguments Raise {A} e.
Arguments Diverge {A}.

Definition M (A : Type) : Type := state -> outcome A * state.

Definition ret {A} (a : A) : M A := fun s => (Ok a, s).

Definition bind {A B} (c : M A) (k : A -> M B) : M B :=
  fun s =>
    match c s with
    | (Ok a, s') => k a s'
    | (Raise e, s') => (Raise e, s')
    | (Diverge, s') => (Diverge, s')
    end.

Definition raise {A} (e : exn) : M A := fun s => (Raise e, s).

Definition diverge {A} : M A := fun s => (Diverge, s).

Declare Scope py_scope.
Delimit Scope py_scope with py.
Notation "x <- c ;; k" := (bind c (fun x => k))
  (at level 61, c at next level, right associativity) : py_scope.
Notation "c ;; k" := (bind c (fun _ => k))
  (at level 61, right associativity) : py_scope.
Local Open Scope py_scope.

(** [while True: body], where the body answers [Some a] to leave the loop
    with [a] and [None] to go round again. *)
Fixpoint while_true {A} (fuel : nat) (body : M (option A)) : M A :=
  match fuel with
  | O => diverge
  | S fuel' =>
      r <- body ;;
      match r with
      | Some a => ret a
      | None => while_true fuel' body
      end
  end.

(** ** The port and the console *)

(** [port.read_until(expected=NEWLINE)]: the next scripted read, or [b""]
    once the device has gone silent. *)
Definition read_until (expected : bytes) : M bytes :=
  fun s =>
    match port_rx s with
    | [] => (Ok [], s)
    | data :: rest => (Ok data, set_port_rx rest s)
    end.

(** [port.readlines()]: [readline] until it gives [b""]. *)
Fixpoint take_lines (rx : list bytes) : list bytes * list bytes :=
  match rx with
  | [] => ([], [])
  | line :: rest =>
      match line with
      | [] => ([], rest)
      | _ :: _ => let (lines, rest') := take_lines rest in (line :: lines, rest')
      end
  end.

Definition readlines : M (list bytes) :=
  fun s => let (lines, rest) := take_lines (port_rx s) in
           (Ok lines, set_port_rx rest s).

(** [port.write(data)] *)
Definition write (data : bytes) : M unit :=
  fun s => (Ok tt, set_port_tx (port_tx s ++ [data]) s).

(** [print(...)] *)
Definition print (args : list printed) : M unit :=
  fun s => (Ok tt, set_stdout (stdout s ++ [args]) s).

(** [time.sleep(ms / 1000)] *)
Definition sleep (ms : Z) : M unit := ret tt.

(** [data[0]] *)
Definition getitem0 (data : bytes) : M pyval :=
  match data with
  | [] => raise IndexError
  | c :: _ => ret (PyInt (Z.of_N (Byte.to_N c)))
  end.

(** ** Functions *)

Definition process_error_code (data : bytes) : M unit :=
  print [PBytes data] ;;
  raise (SerialSyncError "Interpreter Error code returned").

Definition process_unsolicited_data (data : bytes) : M unit :=
  if startswith data ERROR_PREFIX then
    process_error_code data
  else
    print [PStr "Unsolicited data unhandled"; PBytes data].

(** One pass of the loop of [blocking_process_reply]. *)
Definition blocking_process_reply_body (expected : bytes) : M (option bool) :=
  data <- read_until NEWLINE ;;
  if bytes_eqb (slice_last data) NEWLINE then
    if startswith data expected then
      ret (Some true)
    else
      first <- getitem0 data ;;
      if py_eq first (PyBytes UNSOLICITED_PREFIX) then
        process_unsolicited_data data ;;
        ret None
      else
        print [PBytes data] ;;
        raise (SerialSyncError "Unexpected return data")
  else
    raise (SerialSyncError "Newline not found - timeout").

(** Every pass that goes round again has used up one scripted read, so the
    reads still to come bound the number of passes. *)
Definition blocking_process_reply (expected : bytes) : M bool :=
  fun s => while_true (S (List.length (port_rx s)))
                      (blocking_process_reply_body expected) s.

(** One pass of the loop of [blocking_get_reply]. *)
Definition blocking_get_reply_body : M (option bytes) :=
  data <- read_until NEWLINE ;;
  if bytes_eqb (slice_last data) NEWLINE then
    first <- getitem0 data ;;
    if py_eq first (PyBytes UNSOLICITED_PREFIX) then
      process_unsolicited_data data ;;
      ret None
    else
      ret (Some data)
  else
    raise (SerialSyncError "Newline not found - timeout").

Definition blocking_get_reply : M bytes :=
  fun s => while_true (S (List.length (port_rx s))) blocking_get_reply_body s.

(** One pass of the loop of [clear_replies]; [Some tt] is its [break]. *)
Definition clear_replies_body : M (option unit) :=
  data <- read_until NEWLINE ;;
  if bytes_in NEWLINE data then
    first <- getitem0 data ;;
    if py_eq first (PyBytes (bytes_lit "@")) then
      process_unsolicited_data data ;;
      ret None
    else
      ret None
  else
    ret (Some tt).

Definition clear_replies : M unit :=
  fun s => while_true (S (List.length (port_rx s))) clear_replies_body s.

(** ** Blocking command functions *)

(** Reading and assigning the module's globals. *)
Definition get_numeric_error_codes : M bool :=
  fun s => (Ok (numeric_error_codes s), s).

Definition assign_echo_on (v : bool) : M unit :=
  fun s => (Ok tt, set_echo_flag v s).

Definition do_ok_test : M unit :=
  write OK_COMMAND ;;
  flag <- get_numeric_error_codes ;;
  if flag then
    blocking_process_reply OK_RESULT_NUMERIC ;; ret tt
  else
    blocking_process_reply OK_RESULT_VERBOSE ;; ret tt.

Definition get_version : M unit :=
  write SHOW_VERSION_COMMAND ;;
  reply <- blocking_get_reply ;;
  print [PBytes (rstrip reply)].

Definition set_echo_off : M unit :=
  write ECHO_OFF_COMMAND ;;
  clear_replies ;;
  assign_echo_on false.

Definition set_echo_on : M unit :=
  write ECHO_ON_COMMAND ;;
  clear_replies ;;
  assign_echo_on true.

(** The five stubs build an exception object and drop it: the statement
    [MajorError("Unimplemented")] has no [raise]. *)
Definition discard_exn (e : exn) : M unit := ret tt.

Definition set_numeric_error_codes : M unit :=
  discard_exn (MajorError "Unimplemented").

Definition set_text_error_codes : M unit :=
  discard_exn (MajorError "Unimplemented").

Definition get_switches : M unit :=
  discard_exn (MajorError "Unimplemented").

Definition get_sensors : M unit :=
  discard_exn (MajorError "Unimplemented").

Definition set_led : M unit :=
  discard_exn (MajorError "Unimplemented").

(** ** The reset sequence *)

(** [for line in lines: if line.startswith(RESET_STATE_RETURN): ...] *)
Fixpoint scan_lines (lines : list bytes) (found : bool) : M bool :=
  match lines with
  | [] => ret found
  | line :: lines' =>
      if startswith line RESET_STATE_RETURN then
        print [PStr "Reset arduino"] ;;
        scan_lines lines' true
      else
        scan_lines lines' found
  end.

(** One pass of [while not found]; the locals are [found] and [count]. *)
Definition reset_poll (found : bool) (count : Z) : M (bool * Z) :=
  write RESET_STATE_COMMAND ;;
  sleep 200 ;;
  lines <- readlines ;;
  found <- scan_lines lines found ;;
  let count := count - 1 in
  if count <=? 0 then
    print [PStr "Having problems resetting arduino"] ;;
    ret (found, 200)
  else
    ret (found, count).

(** [while not found: ...]; nothing bounds the number of passes, so the
    loop takes fuel.  It gives back the final value of [count]. *)
Fixpoint reset_loop (fuel : nat) (found : bool) (count : Z) : M Z :=
  if found then ret count
  else
    match fuel with
    | O => diverge
    | S fuel' =>
        fc <- reset_poll found count ;;
        reset_loop fuel' (fst fc) (snd fc)
    end.

Definition reset_arduino (fuel : nat) : M unit :=
  write CONTROL_C_ETX ;;
  sleep 20 ;;
  write CONTROL_X_CAN ;;
  sleep 20 ;;
  reset_loop fuel false 50 ;;
  clear_replies ;;
  set_echo_off ;;
  set_echo_off ;;
  do_ok_test ;;
  get_version ;;
  set_numeric_error_codes ;;
  do_ok_test.

(** * Reading the model *)

(** A newline-terminated frame, as the device sends it: [frame "OK"] is
    [b"OK\n"]. *)
Definition frame (s : string) : bytes := bytes_lit s ++ NEWLINE.

(** The read that the next [read_until] call gives. *)
Definition next_read (s : state) : bytes := hd [] (port_rx s).

(** The state once that read is done. *)
Definition after_read (s : state) : state := set_port_rx (tl (port_rx s)) s.

(** The two errors the reply loops raise themselves. *)
Definition timeout_exn : exn := SerialSyncError "Newline not found - timeout".
Definition unexpected_exn : exn := SerialSyncError "Unexpected return data".

(** What [clear_replies] leaves to be read: everything after the first
    read that holds no newline. *)
Fixpoint drained (rx : list bytes) : list bytes :=
  match rx with
  | [] => []
  | data :: rest => if bytes_in NEWLINE data then drained rest else rest
  end.

(** What a pass of [blocking_process_reply] can make of a frame. *)
Inductive classification : Type :=
| Expected            (* the wait returns [True] *)
| Unsolicited         (* handled, and the loop goes round again *)
| ErrorNotification   (* [process_error_code] raises *)
| Unexpected.         (* the final [else] raises *)

(** The classification is read off the code: run one pass of the loop on
    the frame and look at how it ends.  A read that is not a terminated
    frame has none. *)
Definition classify (expected data : bytes) : option classification :=
  match fst (blocking_process_reply_body expected (initial_state [data])) with
  | Ok (Some _) => Some Expected
  | Ok None => Some Unsolicited
  | Raise (SerialSyncError msg) =>
      if String.eqb msg "Interpreter Error code returned" then Some ErrorNotification
      else if String.eqb msg "Unexpected return data" then Some Unexpected
      else None
  | _ => None
  end.

(** The frames the loop passes over on its way to the reply. *)
Definition passed_over (expected data : bytes) : bool :=
  match classify expected data with
  | Some Unsolicited => true
  | _ => false
  end.

(** The precedence as the specification words it: error first, then the
    expected prefix, then the reserved byte. *)
Definition classify_spec (expected data : bytes) : classification :=
  if startswith data ERROR_PREFIX then ErrorNotification
  else if startswith data expected then Expected
  else if startswith data UNSOLICITED_PREFIX then Unsolicited
  else Unexpected.

(** Success as the specification words it: the first frame that is not an
    unsolicited notification is the expected token and nothing more. *)
Fixpoint exact_success_spec (expected : bytes) (rx : list bytes) : bool :=
  match rx with
  | [] => false
  | data :: rest =>
      if bytes_eqb data (expected ++ NEWLINE) then true
      else if startswith data UNSOLICITED_PREFIX
              && negb (startswith data ERROR_PREFIX)
           then exact_success_spec expected rest
           else false
  end.

(** The test of the reset loop on a line. *)
Definition is_rst (line : bytes) : bool := startswith line RESET_STATE_RETURN.

(** The counter after one more poll. *)
Definition next_count (count : Z) : Z :=
  if count - 1 <=? 0 then 200 else count - 1.

(** * The rest of the script *)

(** ** [robot_libs/Raspberry_Pi_Lib.py] *)

(** The part of the file system the library looks at: the text of each
    regular file, by path. *)
Definition filesystem : Type := string -> option string.

Definition RPI_file : string := "/sys/firmware/devicetree/base/model".

(** [data.find(sub)] on [str]: the lowest index where [sub] occurs, [-1]
    when it does not. *)
Fixpoint str_find_from (data sub : string) (i : Z) : Z :=
  if String.prefix sub data then i
  else
    match data with
    | EmptyString => -1
    | String _ data' => str_find_from data' sub (i + 1)
    end.

Definition str_find (data sub : string) : Z := str_find_from data sub 0.

(** [os.path.isfile(path)] *)
Definition isfile (fs : filesystem) (path : string) : bool :=
  match fs path with
  | Some _ => true
  | None => false
  end.

(** [open(path, "r")], [read()], [close()] *)
Definition read_file (fs : filesystem) (path : string) : string :=
  match fs path with
  | Some data => data
  | None => EmptyString
  end.

Definition is_raspberry_pi (fs : filesystem) : bool :=
  if isfile fs RPI_file then
    let data := read_file fs RPI_file in
    if negb (str_find data "Raspberry" =? -1) then true
    else false
  else false.

(** ** The choice of the serial port *)

(** The exception the module raises while it is imported. *)
Inductive import_error : Type :=
| ValueError (msg : string).

(** The module-level [if platform == ...] chain: the value [serial_port]
    is left with, or the exception that stops the import. *)
Definition serial_port (platform : string) (fs : filesystem)
  : import_error + string :=
  if (platform =? "linux")%string || (platform =? "linux2")%string then
    if is_raspberry_pi fs then
      inr "/dev/serial0"%string
    else
      let serial_port := "/dev/ttyS1"%string in
      let serial_port := "/dev/ttyUSB0"%string in
      inr serial_port
  else if (platform =? "darwin")%string then
    inr "/dev/cu.usbserial-1420"%string
  else if (platform =? "win32")%string then
    inr "COM3"%string
  else
    inl (ValueError "Unknown platform").

(** ** Sequences of calls *)

(** The calls of a list, one after the other. *)
Fixpoint run_all (calls : list (M unit)) : M unit :=
  match calls with
  | [] => ret tt
  | c :: calls' => c ;; run_all calls'
  end.

(** The echo command that sets the flag to [on], and what it writes. *)
Definition set_echo (on : bool) : M unit :=
  if on then set_echo_on else set_echo_off.

Definition echo_command (on : bool) : bytes :=
  if on then ECHO_ON_COMMAND else ECHO_OFF_COMMAND.

(** The token [do_ok_test] waits for. *)
Definition ok_token (s : state) : bytes :=
  if numeric_error_codes s then OK_RESULT_NUMERIC else OK_RESULT_VERBOSE.

(** How often the reset loop has printed its exhaustion message after a
    number of polls without [RST]. *)
Definition warnings (polls : nat) : nat :=
  let n := Z.of_nat polls in
  Z.to_nat (if n <? 50 then 0 else 1 + (n - 50) / 200).

Definition exhausted_message : list printed :=
  [PStr "Having problems resetting arduino"].

(** Two devices for the reset sequence, from the module's initial state:
    one that acknowledges the reset and answers every command, and one
    that falls silent before the version query. *)
Definition answering_device : state :=
  initial_state [frame "RST"; []; []; []; [];
                 frame "OK"; frame "V2.1"; frame "OK"].

Definition device_lost_after_ok : state :=
  initial_state [frame "RST"; []; []; []; []; frame "OK"].

(** * Properties *)

(** ** Bytes *)

Lemma bytes_eqb_eq (x y : bytes) : bytes_eqb x y = true <-> x = y.
Proof.
  revert y; induction x as [|a x IH]; intros [|c y]; simpl;
    try (split; (discriminate || reflexivity)).
  rewrite andb_true_iff, IH. split.
  - intros [Hb ->]. apply Byte.byte_dec_bl in Hb. now subst.
  - intros [= -> ->]. split; [now apply Byte.byte_dec_lb | reflexivity].
Qed.

Lemma slice_last_app (data : bytes) (c : byte) : slice_last (data ++ [c]) = [c].
Proof.
  unfold slice_last. rewrite length_app. simpl.
  replace (List.length data + 1 - 1)%nat with (List.length data + 0)%nat by lia.
  now rewrite skipn_app, Nat.add_0_r, skipn_all, Nat.sub_diag.
Qed.

Lemma frame_terminated (s : string) :
  bytes_eqb (slice_last (frame s)) NEWLINE = true.
Proof. unfold frame, NEWLINE. now rewrite slice_last_app. Qed.

(** ** The comparison [data[0] == b"@"] *)

(** In Python 3 an element of a [bytes] object is an [int], and an [int] is
    never equal to a [bytes] object: the test that should recognise
    unsolicited data fails on every frame. *)
Lemma getitem0_never_bytes (data p : bytes) (s s' : state) (v : pyval) :
  getitem0 data s = (Ok v, s') -> py_eq v (PyBytes p) = false.
Proof.
  destruct data as [|c data]; simpl.
  - discriminate.
  - intros [= <- _]. reflexivity.
Qed.

(** ** One pass of each loop *)

Lemma read_until_step (expected : bytes) (s : state) :
  read_until expected s = (Ok (next_read s), after_read s).
Proof.
  unfold read_until, next_read, after_read. destruct s as [[|d rx] tx out n e]; reflexivity.
Qed.

Lemma blocking_process_reply_body_step (expected : bytes) (s : state) :
  blocking_process_reply_body expected s =
  if bytes_eqb (slice_last (next_read s)) NEWLINE then
    if startswith (next_read s) expected then (Ok (Some true), after_read s)
    else (Raise unexpected_exn,
          set_stdout (stdout s ++ [[PBytes (next_read s)]]) (after_read s))
  else (Raise timeout_exn, after_read s).
Proof.
  unfold blocking_process_reply_body, bind at 1. rewrite read_until_step.
  destruct (bytes_eqb (slice_last (next_read s)) NEWLINE) eqn:Hnl; [|reflexivity].
  destruct (startswith (next_read s) expected); [reflexivity|].
  destruct (next_read s) as [|c data]; [discriminate Hnl|]. reflexivity.
Qed.

Lemma blocking_get_reply_body_step (s : state) :
  blocking_get_reply_body s =
  if bytes_eqb (slice_last (next_read s)) NEWLINE
  then (Ok (Some (next_read s)), after_read s)
  else (Raise timeout_exn, after_read s).
Proof.
  unfold blocking_get_reply_body, bind at 1. rewrite read_until_step.
  destruct (bytes_eqb (slice_last (next_read s)) NEWLINE) eqn:Hnl; [|reflexivity].
  destruct (next_read s) as [|c data]; [discriminate Hnl|]. reflexivity.
Qed.

Lemma clear_replies_body_step (s : state) :
  clear_replies_body s =
  if bytes_in NEWLINE (next_read s)
  then (Ok None, after_read s)
  else (Ok (Some tt), after_read s).
Proof.
  unfold clear_replies_body, bind at 1. rewrite read_until_step.
  destruct (bytes_in NEWLINE (next_read s)) eqn:Hnl; [|reflexivity].
  destruct (next_read s) as [|c data]; [discriminate Hnl|]. reflexivity.
Qed.

(** ** The reply loops *)

Lemma while_true_unfold {A} (fuel : nat) (body : M (option A)) (s : state) :
  while_true (S fuel) body s =
  match body s with
  | (Ok (Some a), s') => (Ok a, s')
  | (Ok None, s') => while_true fuel body s'
  | (Raise e, s') => (Raise e, s')
  | (Diverge, s') => (Diverge, s')
  end.
Proof.
  simpl. unfold bind. destruct (body s) as [[[a|]|e|] s']; reflexivity.
Qed.

Lemma blocking_process_reply_step (expected : bytes) (s : state) :
  blocking_process_reply expected s =
  if bytes_eqb (slice_last (next_read s)) NEWLINE then
    if startswith (next_read s) expected then (Ok true, after_read s)
    else (Raise unexpected_exn,
          set_stdout (stdout s ++ [[PBytes (next_read s)]]) (after_read s))
  else (Raise timeout_exn, after_read s).
Proof.
  unfold blocking_process_reply.
  rewrite while_true_unfold, blocking_process_reply_body_step.
  destruct (bytes_eqb (slice_last (next_read s)) NEWLINE); [|reflexivity].
  destruct (startswith (next_read s) expected); reflexivity.
Qed.

Lemma blocking_get_reply_step (s : state) :
  blocking_get_reply s =
  if bytes_eqb (slice_last (next_read s)) NEWLINE
  then (Ok (next_read s), after_read s)
  else (Raise timeout_exn, after_read s).
Proof.
  unfold blocking_get_reply.
  rewrite while_true_unfold, blocking_get_reply_body_step.
  destruct (bytes_eqb (slice_last (next_read s)) NEWLINE); reflexivity.
Qed.

Lemma clear_replies_loop (rx : list bytes) :
  forall s, port_rx s = rx ->
  while_true (S (List.length rx)) clear_replies_body s
  = (Ok tt, set_port_rx (drained rx) s).
Proof.
  induction rx as [|data rest IH]; intros s Hrx;
    rewrite while_true_unfold, clear_replies_body_step;
    unfold next_read, after_read; rewrite Hrx; cbn [hd tl drained].
  - reflexivity.
  - destruct (bytes_in NEWLINE data); [|reflexivity].
    rewrite IH by reflexivity. reflexivity.
Qed.

(** [clear_replies] always returns, and touches nothing but the pending
    input. *)
Lemma clear_replies_returns (s : state) :
  clear_replies s = (Ok tt, set_port_rx (drained (port_rx s)) s).
Proof. unfold clear_replies. now apply clear_replies_loop. Qed.

Lemma set_echo_off_returns (s : state) :
  set_echo_off s =
  (Ok tt, mkState (drained (port_rx s)) (port_tx s ++ [ECHO_OFF_COMMAND])
                  (stdout s) (numeric_error_codes s) false).
Proof.
  unfold set_echo_off, bind, write. rewrite clear_replies_returns. reflexivity.
Qed.

Lemma set_echo_on_returns (s : state) :
  set_echo_on s =
  (Ok tt, mkState (drained (port_rx s)) (port_tx s ++ [ECHO_ON_COMMAND])
                  (stdout s) (numeric_error_codes s) true).
Proof.
  unfold set_echo_on, bind, write. rewrite clear_replies_returns. reflexivity.
Qed.

(** The reply loops are total: the fuel they are given is enough. *)
Lemma blocking_process_reply_total (expected : bytes) (s : state) :
  fst (blocking_process_reply expected s) <> Diverge.
Proof.
  rewrite blocking_process_reply_step.
  destruct (bytes_eqb _ _); [destruct (startswith _ _)|]; discriminate.
Qed.

Lemma blocking_get_reply_total (s : state) :
  fst (blocking_get_reply s) <> Diverge.
Proof.
  rewrite blocking_get_reply_step. destruct (bytes_eqb _ _); discriminate.
Qed.

(** ** Error frames in [blocking_process_reply] *)

(** A frame that is not the expected reply ends the wait with a
    [SerialSyncError], error frames included.  They get there through the
    final [else], not through [process_unsolicited_data]. *)
Lemma blocking_process_reply_rejects (expected data : bytes) (rest : list bytes)
      (s : state) :
  port_rx s = data :: rest ->
  bytes_eqb (slice_last data) NEWLINE = true ->
  startswith data expected = false ->
  blocking_process_reply expected s
  = (Raise (SerialSyncError "Unexpected return data"),
     set_stdout (stdout s ++ [[PBytes data]]) (set_port_rx rest s)).
Proof.
  intros Hrx Hnl Hexp. rewrite blocking_process_reply_step.
  unfold next_read, after_read. rewrite Hrx. simpl.
  now rewrite Hnl, Hexp.
Qed.

(** [blocking_get_reply] hands back the first terminated frame it reads,
    whatever its first byte. *)
Lemma blocking_get_reply_first_frame (data : bytes) (rest : list bytes)
      (s : state) :
  port_rx s = data :: rest ->
  bytes_eqb (slice_last data) NEWLINE = true ->
  blocking_get_reply s = (Ok data, set_port_rx rest s).
Proof.
  intros Hrx Hnl. rewrite blocking_get_reply_step.
  unfold next_read, after_read. rewrite Hrx. simpl. now rewrite Hnl.
Qed.

(** ** Unsolicited and error frames in the reply waits *)

(** C1 (the code departs from the claim).  The claim: a frame that begins
    with [@] but not with [@Error:] is discarded and the wait carries on,
    so that [@Low battery] followed by [V2.1] yields [V2.1] from
    [blocking_get_reply].  The code: [blocking_get_reply] returns the
    [@Low battery] frame itself and leaves [V2.1] unread, and
    [blocking_process_reply], waiting for [OK], raises on the
    [@Low battery] frame although [OK] follows it. *)
Theorem C1_unsolicited_frame_ends_the_wait :
  blocking_get_reply (initial_state [frame "@Low battery"; frame "V2.1"])
  = (Ok (frame "@Low battery"), initial_state [frame "V2.1"])
  /\
  blocking_process_reply OK_RESULT_VERBOSE
    (initial_state [frame "@Low battery"; frame "OK"])
  = (Raise (SerialSyncError "Unexpected return data"),
     set_stdout [[PBytes (frame "@Low battery")]] (initial_state [frame "OK"])).
Proof. split; vm_compute; reflexivity. Qed.

(** C2 (the code departs from the claim).  The claim: a frame that begins
    with [@Error:] makes every reply wait raise [SerialSyncError], and
    [blocking_get_reply] never returns such a frame.  The code:
    [blocking_get_reply] returns the frame [@Error:5] as its result. *)
Theorem C2_get_reply_returns_error_frame :
  blocking_get_reply (initial_state [frame "@Error:5"])
  = (Ok (frame "@Error:5"), initial_state []).
Proof. vm_compute. reflexivity. Qed.

(** ** The numeric acknowledgement *)

(** C6: with [numeric_error_codes] set, [do_ok_test] sends [?] and the
    reply [@Error:0] is taken as the acknowledgement: the wait for
    [OK_RESULT_NUMERIC] returns [True] and [do_ok_test] returns. *)
Theorem C6_numeric_ok_reply_accepted
        (rest tx : list bytes) (out : list (list printed)) (e : bool) :
  do_ok_test (mkState (frame "@Error:0" :: rest) tx out true e)
  = (Ok tt, mkState rest (tx ++ [OK_COMMAND]) out true e)
  /\
  blocking_process_reply OK_RESULT_NUMERIC
    (mkState (frame "@Error:0" :: rest) (tx ++ [OK_COMMAND]) out true e)
  = (Ok true, mkState rest (tx ++ [OK_COMMAND]) out true e).
Proof.
  assert (H : blocking_process_reply OK_RESULT_NUMERIC
                (mkState (frame "@Error:0" :: rest) (tx ++ [OK_COMMAND]) out true e)
              = (Ok true, mkState rest (tx ++ [OK_COMMAND]) out true e)).
  { rewrite blocking_process_reply_step. reflexivity. }
  split; [|exact H].
  unfold do_ok_test, bind, write, get_numeric_error_codes, set_port_tx.
  cbn [port_rx port_tx stdout numeric_error_codes echo_on].
  now rewrite H.
Qed.

(** ** Reads that time out *)

(** C8: when a read ends without the newline (the empty read included),
    [blocking_process_reply] and [blocking_get_reply] raise the timeout
    error and keep nothing of what was read; and whatever
    [blocking_get_reply] returns ends with the newline. *)
Theorem C8_timeout_raises :
  (forall (expected : bytes) (s : state),
      bytes_eqb (slice_last (next_read s)) NEWLINE = false ->
      blocking_process_reply expected s
      = (Raise (SerialSyncError "Newline not found - timeout"), after_read s))
  /\
  (forall s : state,
      bytes_eqb (slice_last (next_read s)) NEWLINE = false ->
      blocking_get_reply s
      = (Raise (SerialSyncError "Newline not found - timeout"), after_read s))
  /\
  (forall (s s' : state) (data : bytes),
      blocking_get_reply s = (Ok data, s') ->
      bytes_eqb (slice_last data) NEWLINE = true).
Proof.
  split; [|split].
  - intros expected s H. rewrite blocking_process_reply_step. now rewrite H.
  - intros s H. rewrite blocking_get_reply_step. now rewrite H.
  - intros s s' data. rewrite blocking_get_reply_step.
    destruct (bytes_eqb (slice_last (next_read s)) NEWLINE) eqn:H.
    + intros [= <- _]. exact H.
    + discriminate.
Qed.

(** A partial reply [OK] with no newline, and a silent device. *)
Lemma C8_timeout_raises_witness :
  blocking_process_reply OK_RESULT_VERBOSE (initial_state [bytes_lit "OK"])
  = (Raise (SerialSyncError "Newline not found - timeout"), initial_state [])
  /\
  blocking_get_reply (initial_state [])
  = (Raise (SerialSyncError "Newline not found - timeout"), initial_state [])
  /\
  bytes_eqb (slice_last (frame "V2.1")) NEWLINE = true.
Proof.
  destruct C8_timeout_raises as [Hp [Hg Hr]].
  split; [|split].
  - apply (Hp OK_RESULT_VERBOSE (initial_state [bytes_lit "OK"])). reflexivity.
  - apply (Hg (initial_state [])). reflexivity.
  - apply (Hr (initial_state [frame "V2.1"]) (initial_state []) (frame "V2.1")).
    reflexivity.
Defined.

(** ** Echo *)

(** C9: after two calls of [set_echo_off] in a row, from any state, both
    calls have returned and [echo_on] is false (as it already is after the
    first). *)
Theorem C9_set_echo_off_twice (s : state) :
  exists s1 s2 : state,
    set_echo_off s = (Ok tt, s1) /\ echo_on s1 = false /\
    set_echo_off s1 = (Ok tt, s2) /\ echo_on s2 = false /\
    (set_echo_off ;; set_echo_off) s = (Ok tt, s2).
Proof.
  eexists. eexists.
  split; [apply set_echo_off_returns|].
  split; [reflexivity|].
  split; [apply set_echo_off_returns|].
  split; [reflexivity|].
  unfold bind. now rewrite !set_echo_off_returns.
Qed.

(** ** The stubs *)

(** C10: [set_numeric_error_codes], [set_text_error_codes],
    [get_switches], [get_sensors] and [set_led] return without raising and
    leave the whole state as it was: nothing is written to the port and
    the two flags keep their values. *)
Theorem C10_stubs_do_nothing (s : state) :
  Forall (fun stub : M unit =>
            exists s' : state,
              stub s = (Ok tt, s') /\
              port_tx s' = port_tx s /\
              echo_on s' = echo_on s /\
              numeric_error_codes s' = numeric_error_codes s /\
              s' = s)
         [set_numeric_error_codes; set_text_error_codes;
          get_switches; get_sensors; set_led].
Proof.
  repeat constructor; exists s; repeat split; reflexivity.
Qed.

(** ** What a pass of [blocking_process_reply] makes of a frame *)

Lemma classify_frame (expected data : bytes) :
  bytes_eqb (slice_last data) NEWLINE = true ->
  classify expected data
  = Some (if startswith data expected then Expected else Unexpected).
Proof.
  intros Hnl. unfold classify. rewrite blocking_process_reply_body_step.
  unfold next_read. cbn [initial_state port_rx hd]. rewrite Hnl.
  destruct (startswith data expected); reflexivity.
Qed.

Lemma classify_timeout (expected data : bytes) :
  bytes_eqb (slice_last data) NEWLINE = false ->
  classify expected data = None.
Proof.
  intros Hnl. unfold classify. rewrite blocking_process_reply_body_step.
  unfold next_read. cbn [initial_state port_rx hd]. now rewrite Hnl.
Qed.

Lemma passed_over_never (expected data : bytes) :
  passed_over expected data = false.
Proof.
  unfold passed_over.
  destruct (bytes_eqb (slice_last data) NEWLINE) eqn:Hnl.
  - rewrite classify_frame by assumption. now destruct (startswith data expected).
  - now rewrite classify_timeout.
Qed.

(** C5, counterexample.  With the numeric acknowledgement expected, the
    frame [@Error:0] starts with [@Error:]; the worded precedence makes it
    an error notification, the code takes it as the expected reply. *)
Lemma C5_error_prefix_not_first :
  classify OK_RESULT_NUMERIC (frame "@Error:0") = Some Expected /\
  classify_spec OK_RESULT_NUMERIC (frame "@Error:0") = ErrorNotification /\
  classify OK_RESULT_NUMERIC (frame "@Error:0")
  <> Some (classify_spec OK_RESULT_NUMERIC (frame "@Error:0")).
Proof. repeat split; vm_compute; (reflexivity || discriminate). Qed.

(** C5, amended.  For a terminated frame the test against the expected
    prefix is made first: the frame is [Expected] exactly when it starts
    with the expected prefix, also when it starts with [@Error:] too; a
    frame that starts with neither the expected prefix nor [@] is
    [Unexpected]; and one classification applies, no more. *)
Theorem C5_expected_prefix_first (expected data : bytes) :
  bytes_eqb (slice_last data) NEWLINE = true ->
  (classify expected data = Some Expected <-> startswith data expected = true)
  /\
  (startswith data expected = false ->
   startswith data UNSOLICITED_PREFIX = false ->
   classify expected data = Some Unexpected)
  /\
  (exists! c : classification, classify expected data = Some c).
Proof.
  intros Hnl. rewrite (classify_frame expected data Hnl).
  destruct (startswith data expected) eqn:Hexp.
  - split; [split; reflexivity|]. split; [discriminate|].
    exists Expected. split; [reflexivity | now intros c [= <-]].
  - split; [split; discriminate|]. split; [reflexivity|].
    exists Unexpected. split; [reflexivity | now intros c [= <-]].
Qed.

Lemma C5_expected_prefix_first_witness :
  (classify OK_RESULT_NUMERIC (frame "@Error:0") = Some Expected
   <-> startswith (frame "@Error:0") OK_RESULT_NUMERIC = true)
  /\
  (startswith (frame "@Error:0") OK_RESULT_NUMERIC = false ->
   startswith (frame "@Error:0") UNSOLICITED_PREFIX = false ->
   classify OK_RESULT_NUMERIC (frame "@Error:0") = Some Unexpected)
  /\
  (exists! c : classification,
      classify OK_RESULT_NUMERIC (frame "@Error:0") = Some c).
Proof.
  apply (C5_expected_prefix_first OK_RESULT_NUMERIC (frame "@Error:0")).
  reflexivity.
Defined.

(** C3, counterexample.  Waiting for [OK], the frame [OKAY] is not the
    token and nothing more, yet the wait returns [True]. *)
Lemma C3_longer_frame_accepted :
  blocking_process_reply OK_RESULT_VERBOSE (initial_state [frame "OKAY"])
  = (Ok true, initial_state [])
  /\ exact_success_spec OK_RESULT_VERBOSE [frame "OKAY"] = false
  /\ startswith (frame "OKAY") OK_RESULT_VERBOSE = true
  /\ frame "OKAY" <> OK_RESULT_VERBOSE ++ NEWLINE.
Proof. repeat split; vm_compute; (reflexivity || discriminate). Qed.

(** C3, amended.  [blocking_process_reply] returns [True] if and only if
    it reads a terminated frame that starts with the expected token, the
    reads before it being frames that the loop passed over; a timeout or a
    frame that raises before it prevents success.  The match is by prefix:
    what follows the token in the frame is not looked at. *)
Theorem C3_success_iff_prefix_frame (expected : bytes) (s : state) :
  (exists s' : state, blocking_process_reply expected s = (Ok true, s'))
  <->
  (exists (pre : list bytes) (data : bytes) (rest : list bytes),
      port_rx s = pre ++ data :: rest /\
      Forall (fun f => passed_over expected f = true) pre /\
      bytes_eqb (slice_last data) NEWLINE = true /\
      startswith data expected = true).
Proof.
  rewrite blocking_process_reply_step. split.
  - intros [s' H].
    destruct (bytes_eqb (slice_last (next_read s)) NEWLINE) eqn:Hnl;
      [|discriminate].
    destruct (startswith (next_read s) expected) eqn:Hexp; [|discriminate].
    unfold next_read in *. destruct (port_rx s) as [|data rest]; [discriminate Hnl|].
    exists [], data, rest. repeat split; auto.
  - intros (pre & data & rest & Hrx & Hpre & Hnl & Hexp).
    destruct pre as [|f pre].
    + unfold next_read. rewrite Hrx. cbn [app hd]. rewrite Hnl, Hexp. eauto.
    + inversion Hpre as [|? ? Hf _]. now rewrite passed_over_never in Hf.
Qed.

(** ** The reset polling loop *)

Lemma next_count_positive (count : Z) : 0 < next_count count.
Proof. unfold next_count. destruct (Z.leb_spec (count - 1) 0); lia. Qed.

Lemma take_lines_Forall (P : bytes -> Prop) (rx : list bytes) :
  Forall P rx ->
  Forall P (fst (take_lines rx)) /\ Forall P (snd (take_lines rx)).
Proof.
  induction 1 as [|line rest Hline Hrest [IH1 IH2]]; simpl.
  - split; constructor.
  - destruct line as [|c line].
    + split; [constructor | exact Hrest].
    + destruct (take_lines rest) as [lines rest']. simpl in *.
      split; [now constructor | exact IH2].
Qed.

(** A line that is waiting to be read is either among the lines of this
    poll or still waiting after it, nearer to the front. *)
Lemma take_lines_reaches (pre : list bytes) (line : bytes) (rest : list bytes) :
  line <> [] ->
  In line (fst (take_lines (pre ++ line :: rest))) \/
  exists pre' : list bytes,
    snd (take_lines (pre ++ line :: rest)) = pre' ++ line :: rest /\
    (List.length pre' < List.length pre)%nat.
Proof.
  intros Hline. induction pre as [|p pre IH]; simpl.
  - destruct line as [|c line]; [contradiction|].
    destruct (take_lines rest). left. now left.
  - destruct p as [|c p].
    + right. exists pre. split; [reflexivity | lia].
    + destruct (take_lines (pre ++ line :: rest)) as [lines rest'].
      simpl in *. destruct IH as [IH | [pre' [IH1 IH2]]].
      * left. now right.
      * right. exists pre'. split; [exact IH1 | lia].
Qed.

Lemma scan_lines_returns (lines : list bytes) :
  forall (found : bool) (s : state),
  exists out : list (list printed),
    scan_lines lines found s
    = (Ok (found || existsb is_rst lines), set_stdout (stdout s ++ out) s).
Proof.
  induction lines as [|line lines IH]; intros found s; simpl.
  - exists []. unfold ret. rewrite orb_false_r, app_nil_r. now destruct s.
  - fold (is_rst line). destruct (is_rst line).
    + unfold bind, print.
      destruct (IH true (set_stdout (stdout s ++ [[PStr "Reset arduino"]]) s))
        as [out Hout].
      rewrite Hout. exists ([PStr "Reset arduino"] :: out).
      rewrite orb_true_r. unfold set_stdout. simpl. now rewrite <- app_assoc.
    + destruct (IH found s) as [out Hout]. exists out. now rewrite Hout.
Qed.

(** One poll never raises: it writes the reset command once, counts down
    once, and puts the counter back to 200 when it gets to zero. *)
Lemma reset_poll_returns (found : bool) (count : Z) (s : state) :
  exists out : list (list printed),
    reset_poll found count s
    = (Ok (found || existsb is_rst (fst (take_lines (port_rx s))),
           next_count count),
       mkState (snd (take_lines (port_rx s)))
               (port_tx s ++ [RESET_STATE_COMMAND])
               (stdout s ++ out)
               (numeric_error_codes s) (echo_on s)).
Proof.
  unfold reset_poll, bind, write, sleep, ret, readlines, next_count.
  cbn [port_rx set_port_tx].
  destruct (take_lines (port_rx s)) as [lines rest] eqn:Htl.
  cbn [fst snd].
  match goal with
  | |- context [scan_lines lines found ?s0] =>
      destruct (scan_lines_returns lines found s0) as [out Hout]
  end.
  rewrite Hout.
  destruct (count - 1 <=? 0).
  - exists (out ++ [[PStr "Having problems resetting arduino"]]).
    unfold print, set_stdout, set_port_rx. simpl. now rewrite app_assoc.
  - exists out. reflexivity.
Qed.

Lemma existsb_is_rst_false (lines : list bytes) :
  Forall (fun l => is_rst l = false) lines -> existsb is_rst lines = false.
Proof.
  induction 1 as [|l lines Hl _ IH]; simpl; [reflexivity | now rewrite Hl].
Qed.

(** While no line starts with [RST] the loop neither returns nor raises:
    it is still polling after any number of passes. *)
Lemma reset_loop_keeps_polling (fuel : nat) :
  forall (count : Z) (s : state),
    Forall (fun l => is_rst l = false) (port_rx s) ->
    exists s' : state,
      reset_loop fuel false count s = (Diverge, s') /\
      port_tx s' = port_tx s ++ repeat RESET_STATE_COMMAND fuel.
Proof.
  induction fuel as [|fuel IH]; intros count s Hrx.
  - exists s. split; [reflexivity | now rewrite app_nil_r].
  - cbn [reset_loop]. unfold bind.
    destruct (reset_poll_returns false count s) as [out ->].
    destruct (take_lines_Forall _ _ Hrx) as [Hl Hr].
    rewrite (existsb_is_rst_false _ Hl). cbn [fst snd orb].
    match goal with
    | |- context [reset_loop fuel false _ ?s1] =>
        destruct (IH (next_count count) s1 Hr) as [s' [Hs' Htx]]
    end.
    exists s'. split; [exact Hs'|]. rewrite Htx. cbn [port_tx repeat].
    now rewrite <- app_assoc.
Qed.

Lemma reset_loop_found (fuel : nat) (count : Z) (s : state) :
  reset_loop fuel true count s = (Ok count, s).
Proof. destruct fuel; reflexivity. Qed.

(** Once a line that starts with [RST] is on its way the loop returns,
    whatever the counter has been through, and the counter is positive. *)
Lemma reset_loop_exits (fuel : nat) :
  forall (pre : list bytes) (line : bytes) (rest : list bytes)
         (count : Z) (s : state),
    port_rx s = pre ++ line :: rest ->
    is_rst line = true ->
    (List.length pre < fuel)%nat ->
    exists (count' : Z) (s' : state),
      reset_loop fuel false count s = (Ok count', s') /\ 0 < count'.
Proof.
  induction fuel as [|fuel IH]; intros pre line rest count s Hrx Hline Hfuel;
    [lia|].
  cbn [reset_loop]. unfold bind.
  destruct (reset_poll_returns false count s) as [out ->].
  cbn [fst snd orb].
  assert (Hne : line <> []) by (intros ->; discriminate Hline).
  rewrite Hrx.
  destruct (take_lines_reaches pre line rest Hne) as [Hin | [pre' [Hrest Hlen]]].
  - assert (Hex : existsb is_rst (fst (take_lines (pre ++ line :: rest))) = true)
      by (apply existsb_exists; eauto).
    rewrite Hex. rewrite reset_loop_found.
    do 2 eexists. split; [reflexivity | apply next_count_positive].
  - destruct (existsb is_rst (fst (take_lines (pre ++ line :: rest)))).
    + rewrite reset_loop_found.
      do 2 eexists. split; [reflexivity | apply next_count_positive].
    + eapply IH; [cbn [port_rx]; exact Hrest | exact Hline | lia].
Qed.

(** C7: the counter of the reset loop starts at 50 (against a silent
    device the exhaustion message is printed with the 50th poll, not
    before); each poll writes the reset command once, never raises, and
    takes one off the counter, putting it back to 200 when it gets to
    zero, so the counter stays positive; while no line that starts with
    [RST] comes the loop is still polling after any number of passes; and
    it returns once such a line is read, however many polls came before. *)
Theorem C7_reset_counter_recovers :
  (stdout (snd (reset_arduino 49 (initial_state []))) = [] /\
   stdout (snd (reset_arduino 50 (initial_state [])))
   = [[PStr "Having problems resetting arduino"]])
  /\
  (forall (found : bool) (count : Z) (s : state),
      exists (found' : bool) (s' : state),
        reset_poll found count s
        = (Ok (found', if count - 1 <=? 0 then 200 else count - 1), s') /\
        0 < (if count - 1 <=? 0 then 200 else count - 1) /\
        port_tx s' = port_tx s ++ [RESET_STATE_COMMAND])
  /\
  (forall (fuel : nat) (count : Z) (s : state),
      Forall (fun l => is_rst l = false) (port_rx s) ->
      exists s' : state,
        reset_loop fuel false count s = (Diverge, s') /\
        port_tx s' = port_tx s ++ repeat RESET_STATE_COMMAND fuel)
  /\
  (forall (fuel : nat) (pre : list bytes) (line : bytes) (rest : list bytes)
          (count : Z) (s : state),
      port_rx s = pre ++ line :: rest ->
      is_rst line = true ->
      (List.length pre < fuel)%nat ->
      exists (count' : Z) (s' : state),
        reset_loop fuel false count s = (Ok count', s') /\ 0 < count').
Proof.
  split; [split; vm_compute; reflexivity|].
  split; [|split].
  - intros found count s.
    destruct (reset_poll_returns found count s) as [out H].
    do 2 eexists. split; [exact H|].
    split; [apply next_count_positive | reflexivity].
  - intros fuel. apply reset_loop_keeps_polling.
  - intros fuel. apply reset_loop_exits.
Qed.

(** A device that stays silent for sixty polls and then sends [RST]. *)
Lemma C7_reset_counter_recovers_witness :
  (exists s' : state,
      reset_loop 60 false 50 (initial_state (repeat [] 60)) = (Diverge, s') /\
      port_tx s' = [] ++ repeat RESET_STATE_COMMAND 60)
  /\
  (exists (count' : Z) (s' : state),
      reset_loop 61 false 50 (initial_state (repeat [] 60 ++ [frame "RST"]))
      = (Ok count', s') /\ 0 < count').
Proof.
  destruct C7_reset_counter_recovers as (_ & _ & Hpoll & Hexit).
  split.
  - apply (Hpoll 60%nat 50 (initial_state (repeat [] 60))).
    apply Forall_forall. intros l Hl. apply repeat_spec in Hl. now subst.
  - apply (Hexit 61%nat (repeat [] 60) (frame "RST") [] 50
                 (initial_state (repeat [] 60 ++ [frame "RST"]))).
    + reflexivity.
    + reflexivity.
    + rewrite repeat_length. lia.
Defined.

(** ** The last step of the reset sequence *)

(** The stub changes nothing, so the test that follows it waits for the
    token of the mode the flag was in before. *)
Lemma set_numeric_error_codes_then_ok_test (s : state) :
  (set_numeric_error_codes ;; do_ok_test) s = do_ok_test s.
Proof. reflexivity. Qed.

(** C4 (the code departs from the claim).  The claim: the last step of the
    reset sequence switches the device to numeric error reporting, so that
    [numeric_error_codes] becomes true, and runs the acknowledgement test
    again, waiting for [@Error:0].  The code: [set_numeric_error_codes]
    is a stub.  Started with the globals as the module sets them, the
    sequence never writes [V0], leaves the flag false, and its last test
    waits for [OK]: it returns when the device answers [OK], and raises
    when the device answers [@Error:0]. *)
Theorem C4_numeric_mode_never_set :
  (exists s' : state,
      reset_arduino 1
        (initial_state [frame "RST"; []; []; []; [];
                        frame "OK"; frame "V2.1"; frame "OK"])
      = (Ok tt, s') /\
      numeric_error_codes s' = false /\
      ~ In VERBOSE_OFF_COMMAND (port_tx s'))
  /\
  (exists s' : state,
      reset_arduino 1
        (initial_state [frame "RST"; []; []; []; [];
                        frame "OK"; frame "V2.1"; frame "@Error:0"])
      = (Raise (SerialSyncError "Unexpected return data"), s') /\
      numeric_error_codes s' = false /\
      ~ In VERBOSE_OFF_COMMAND (port_tx s')).
Proof.
  split; eexists; (split; [vm_compute; reflexivity|]);
    (split; [reflexivity|]); vm_compute; intuition discriminate.
Qed.

(** * Further properties of the script *)

(** ** Prefixes and occurrences *)

Lemma startswith_nil (data : bytes) : startswith data [] = true.
Proof. now destruct data. Qed.

Lemma startswith_prefix (data prefix : bytes) :
  startswith data prefix = true <-> exists rest : bytes, data = prefix ++ rest.
Proof.
  revert data. induction prefix as [|p prefix IH]; intros data.
  - rewrite startswith_nil. split; [intros _; now exists data | reflexivity].
  - destruct data as [|d data]; simpl.
    + split; [discriminate | intros [rest H]; discriminate H].
    + rewrite andb_true_iff, IH. split.
      * intros [Hb [rest ->]]. apply Byte.byte_dec_bl in Hb. subst. now exists rest.
      * intros [rest [= -> ->]]. split; [now apply Byte.byte_dec_lb | now exists rest].
Qed.

Lemma bytes_in_occurs (sub data : bytes) :
  bytes_in sub data = true <->
  exists pre post : bytes, data = pre ++ sub ++ post.
Proof.
  induction data as [|d data IH].
  - cbn [bytes_in]. rewrite orb_false_r, startswith_prefix. split.
    + intros [rest H]. now exists [], rest.
    + intros (pre & post & H). destruct pre; [now exists post | discriminate H].
  - cbn [bytes_in]. rewrite orb_true_iff, IH, startswith_prefix. split.
    + intros [[rest H] | (pre & post & H)].
      * now exists [], rest.
      * exists (d :: pre), post. now rewrite H.
    + intros (pre & post & H). destruct pre as [|c pre].
      * left. now exists post.
      * right. injection H as _ H. now exists pre, post.
Qed.

Lemma string_prefix_append (s1 s2 : string) :
  String.prefix s1 s2 = true <-> exists rest : string, s2 = (s1 ++ rest)%string.
Proof.
  revert s2. induction s1 as [|c s1 IH]; intros s2.
  - split; [intros _; now exists s2 | intros _; now destruct s2].
  - destruct s2 as [|d s2]; simpl.
    + split; [discriminate | intros [rest H]; discriminate H].
    + destruct (Ascii.ascii_dec c d) as [->|Hcd].
      * rewrite IH. split; intros [rest H]; exists rest; [now rewrite H | now injection H].
      * split; [discriminate | intros [rest [= H _]]; now elim Hcd].
Qed.

(** [find] answers [-1] when there is no occurrence and an index from
    the starting one on when there is. *)
Lemma str_find_from_spec (data sub : string) :
  forall i : Z, 0 <= i ->
  (str_find_from data sub i = -1 /\
   ~ exists pre post : string, data = (pre ++ sub ++ post)%string)
  \/
  (i <= str_find_from data sub i /\
   exists pre post : string, data = (pre ++ sub ++ post)%string).
Proof.
  induction data as [|c data IH]; intros i Hi; cbn [str_find_from].
  - destruct (String.prefix sub EmptyString) eqn:Hp.
    + right. split; [lia|].
      apply string_prefix_append in Hp as [rest Hp]. now exists EmptyString, rest.
    + left. split; [reflexivity|]. intros (pre & post & H).
      destruct pre; [|discriminate H].
      assert (Hp' : String.prefix sub EmptyString = true)
        by (apply string_prefix_append; now exists post).
      congruence.
  - destruct (String.prefix sub (String c data)) eqn:Hp.
    + right. split; [lia|].
      apply string_prefix_append in Hp as [rest Hp]. now exists EmptyString, rest.
    + destruct (IH (i + 1)) as [[Hf Hno] | [Hf (pre & post & Hocc)]]; [lia| |].
      * left. split; [exact Hf|]. intros (pre & post & Hocc). apply Hno.
        destruct pre as [|c' pre].
        -- assert (Hp' : String.prefix sub (String c data) = true)
             by (apply string_prefix_append; now exists post).
           congruence.
        -- injection Hocc as _ Hocc. now exists pre, post.
      * right. split; [lia|]. exists (String c pre), post. simpl. now rewrite Hocc.
Qed.

(** ** [Raspberry_Pi_Lib.is_raspberry_pi] and the serial port *)

(** X13: [is_raspberry_pi] answers [True] exactly when the model file
    exists and the word [Raspberry] occurs somewhere in its text; a
    missing file is not an error, it gives [False]. *)
Theorem X13_is_raspberry_pi_iff (fs : filesystem) :
  is_raspberry_pi fs = true <->
  exists data pre post : string,
    fs RPI_file = Some data /\ data = (pre ++ "Raspberry" ++ post)%string.
Proof.
  unfold is_raspberry_pi, isfile, read_file, str_find.
  destruct (fs RPI_file) as [data|].
  - destruct (str_find_from_spec data "Raspberry" 0)
      as [[Hf Hno] | [Hf (pre & post & Hocc)]]; [lia| |].
    + rewrite Hf. simpl. split; [discriminate|].
      intros (data' & pre & post & [= <-] & Hocc). elim Hno. now exists pre, post.
    + destruct (Z.eqb_spec (str_find_from data "Raspberry" 0) (-1)) as [E|E];
        [lia|]. simpl. split; [intros _ | reflexivity].
      now exists data, pre, post.
  - split; [discriminate|]. now intros (data & _ & _ & [=] & _).
Qed.

(** X14: importing the script raises [ValueError] exactly on a platform
    other than [linux], [linux2], [darwin] and [win32]; on Linux the port
    is [/dev/serial0] exactly when [is_raspberry_pi] holds, and
    [/dev/ttyS1], assigned first on a desktop Linux, is never the port
    that is left. *)
Theorem X14_serial_port_choice (platform : string) (fs : filesystem) :
  ((exists e : import_error, serial_port platform fs = inl e) <->
   ~ In platform ["linux"; "linux2"; "darwin"; "win32"]%string)
  /\
  (serial_port platform fs = inr "/dev/serial0"%string <->
   (platform = "linux"%string \/ platform = "linux2"%string) /\
   is_raspberry_pi fs = true)
  /\
  serial_port platform fs <> inr "/dev/ttyS1"%string.
Proof.
  unfold serial_port.
  destruct (String.eqb_spec platform "linux") as [->|H1];
    [|destruct (String.eqb_spec platform "linux2") as [->|H2];
      [|destruct (String.eqb_spec platform "darwin") as [->|H3];
        [|destruct (String.eqb_spec platform "win32") as [->|H4]]]];
    cbn [orb]; try destruct (is_raspberry_pi fs);
    (split; [|split]);
    try discriminate;
    try (split; [intros [e H]; discriminate H | intros H; elim H; simpl; tauto]);
    try (split; [intros _; split; [tauto|reflexivity] | reflexivity]);
    try (split; [discriminate | intros [_ H]; discriminate H]);
    try (split; [discriminate | intros [[H|H] _]; discriminate H]).
  all: try (split; [intros _ [H|[H|[H|[H|[]]]]]; congruence | intros _; eauto]).
  all: split; [discriminate | intros [[H|H] _]; congruence].
Qed.

(** ** Handling of unsolicited data *)

(** X1: [process_unsolicited_data] raises [SerialSyncError] exactly on
    data that begins with [@Error:], after printing the data; any other
    data is printed with the note that it is unhandled and the call
    returns.  Nothing but the console is touched. *)
Theorem X1_process_unsolicited_data (data : bytes) (s : state) :
  ((exists rest : bytes, data = ERROR_PREFIX ++ rest) /\
   process_unsolicited_data data s
   = (Raise (SerialSyncError "Interpreter Error code returned"),
      set_stdout (stdout s ++ [[PBytes data]]) s))
  \/
  ((~ exists rest : bytes, data = ERROR_PREFIX ++ rest) /\
   process_unsolicited_data data s
   = (Ok tt,
      set_stdout (stdout s ++ [[PStr "Unsolicited data unhandled"; PBytes data]]) s)).
Proof.
  unfold process_unsolicited_data.
  destruct (startswith data ERROR_PREFIX) eqn:H.
  - left. split; [now apply startswith_prefix | reflexivity].
  - right. split; [|reflexivity].
    intros Hp. apply startswith_prefix in Hp. congruence.
Qed.

(** ** The footprint of the reply waits *)

(** X2: a call of [blocking_process_reply] never returns [False] and
    always ends; it takes exactly one read from the port, writes nothing
    and leaves both flags alone. *)
Theorem X2_blocking_process_reply_footprint (expected : bytes) (s : state) :
  fst (blocking_process_reply expected s) <> Ok false /\
  fst (blocking_process_reply expected s) <> Diverge /\
  port_rx (snd (blocking_process_reply expected s)) = tl (port_rx s) /\
  port_tx (snd (blocking_process_reply expected s)) = port_tx s /\
  numeric_error_codes (snd (blocking_process_reply expected s))
  = numeric_error_codes s /\
  echo_on (snd (blocking_process_reply expected s)) = echo_on s.
Proof.
  rewrite blocking_process_reply_step.
  destruct (bytes_eqb _ _); [destruct (startswith _ _)|];
    repeat split; discriminate.
Qed.

(** X3: when the frame read is terminated but does not start with the
    expected token, [blocking_process_reply] prints that frame and raises
    [SerialSyncError("Unexpected return data")]; the reads after it stay
    in the port. *)
Theorem X3_unexpected_frame_reported
        (expected data : bytes) (rest : list bytes) (s : state) :
  port_rx s = data :: rest ->
  bytes_eqb (slice_last data) NEWLINE = true ->
  startswith data expected = false ->
  blocking_process_reply expected s
  = (Raise (SerialSyncError "Unexpected return data"),
     mkState rest (port_tx s) (stdout s ++ [[PBytes data]])
             (numeric_error_codes s) (echo_on s)).
Proof.
  intros Hrx Hnl Hexp. rewrite blocking_process_reply_step.
  unfold next_read, after_read. rewrite Hrx. cbn [hd tl]. now rewrite Hnl, Hexp.
Qed.

Lemma X3_unexpected_frame_reported_witness :
  blocking_process_reply OK_RESULT_VERBOSE
    (initial_state [frame "@Error:5"; frame "OK"])
  = (Raise (SerialSyncError "Unexpected return data"),
     mkState [frame "OK"] [] ([] ++ [[PBytes (frame "@Error:5")]]) false true).
Proof.
  apply (X3_unexpected_frame_reported OK_RESULT_VERBOSE (frame "@Error:5")
           [frame "OK"] (initial_state [frame "@Error:5"; frame "OK"]));
    reflexivity.
Defined.

(** X4: what [blocking_get_reply] returns is the read it took, as it
    came, newline included; that one read is all the call changes: it
    prints nothing and writes nothing. *)
Theorem X4_blocking_get_reply_verbatim (s s' : state) (data : bytes) :
  blocking_get_reply s = (Ok data, s') ->
  data = next_read s /\
  (exists body : bytes, data = body ++ NEWLINE) /\
  s' = mkState (tl (port_rx s)) (port_tx s) (stdout s)
               (numeric_error_codes s) (echo_on s).
Proof.
  rewrite blocking_get_reply_step.
  destruct (bytes_eqb (slice_last (next_read s)) NEWLINE) eqn:Hnl; [|discriminate].
  intros [= <- <-]. split; [reflexivity|]. split; [|reflexivity].
  apply bytes_eqb_eq in Hnl. unfold slice_last in Hnl.
  exists (firstn (List.length (next_read s) - 1) (next_read s)).
  rewrite <- Hnl. symmetry. apply firstn_skipn.
Qed.

Lemma X4_blocking_get_reply_verbatim_witness :
  frame "V2.1" = next_read (initial_state [frame "V2.1"; frame "OK"]) /\
  (exists body : bytes, frame "V2.1" = body ++ NEWLINE) /\
  initial_state [frame "OK"] = mkState [frame "OK"] [] [] false true.
Proof.
  apply (X4_blocking_get_reply_verbatim
           (initial_state [frame "V2.1"; frame "OK"])
           (initial_state [frame "OK"]) (frame "V2.1")).
  reflexivity.
Defined.

(** ** The acknowledgement test and the version query *)

Lemma do_ok_test_step (s : state) :
  do_ok_test s =
  let sent := port_tx s ++ [OK_COMMAND] in
  if bytes_eqb (slice_last (next_read s)) NEWLINE then
    if startswith (next_read s) (ok_token s) then
      (Ok tt, mkState (tl (port_rx s)) sent (stdout s)
                      (numeric_error_codes s) (echo_on s))
    else
      (Raise unexpected_exn,
       mkState (tl (port_rx s)) sent (stdout s ++ [[PBytes (next_read s)]])
               (numeric_error_codes s) (echo_on s))
  else
    (Raise timeout_exn,
     mkState (tl (port_rx s)) sent (stdout s)
             (numeric_error_codes s) (echo_on s)).
Proof.
  destruct s as [rx tx out n e].
  unfold do_ok_test, ok_token, bind, write, get_numeric_error_codes, set_port_tx.
  cbn [port_rx port_tx stdout numeric_error_codes echo_on].
  destruct n; rewrite blocking_process_reply_step;
    unfold next_read, after_read, set_port_rx, set_stdout;
    cbn [port_rx port_tx stdout numeric_error_codes echo_on];
    (destruct (bytes_eqb (slice_last (hd [] rx)) NEWLINE);
     [match goal with
      | |- context [startswith ?d ?t] => destruct (startswith d t)
      end|]);
    reflexivity.
Qed.

Lemma get_version_step (s : state) :
  get_version s =
  let sent := port_tx s ++ [SHOW_VERSION_COMMAND] in
  if bytes_eqb (slice_last (next_read s)) NEWLINE then
    (Ok tt, mkState (tl (port_rx s)) sent
                    (stdout s ++ [[PBytes (rstrip (next_read s))]])
                    (numeric_error_codes s) (echo_on s))
  else
    (Raise timeout_exn,
     mkState (tl (port_rx s)) sent (stdout s)
             (numeric_error_codes s) (echo_on s)).
Proof.
  destruct s as [rx tx out n e].
  unfold get_version, bind, write, set_port_tx. rewrite blocking_get_reply_step.
  unfold next_read, after_read, set_port_rx.
  cbn [port_rx port_tx stdout numeric_error_codes echo_on].
  destruct (bytes_eqb (slice_last (hd [] rx)) NEWLINE); reflexivity.
Qed.

(** X5: [do_ok_test] writes the [?] command once, whatever follows, and
    changes neither flag.  It returns exactly when the read it takes is a
    terminated frame that starts with the token of the current mode
    ([@Error:0] with numeric codes on, [OK] otherwise); in every other
    case it raises [SerialSyncError]. *)
Theorem X5_do_ok_test (s : state) :
  ((exists s' : state, do_ok_test s = (Ok tt, s')) <->
   bytes_eqb (slice_last (next_read s)) NEWLINE = true /\
   startswith (next_read s)
     (if numeric_error_codes s then OK_RESULT_NUMERIC else OK_RESULT_VERBOSE)
   = true)
  /\
  ((exists s' : state, do_ok_test s = (Ok tt, s')) \/
   (exists (msg : string) (s' : state),
       do_ok_test s = (Raise (SerialSyncError msg), s')))
  /\
  port_tx (snd (do_ok_test s)) = port_tx s ++ [OK_COMMAND] /\
  numeric_error_codes (snd (do_ok_test s)) = numeric_error_codes s /\
  echo_on (snd (do_ok_test s)) = echo_on s.
Proof.
  rewrite do_ok_test_step. fold (ok_token s). cbv zeta.
  destruct (bytes_eqb (slice_last (next_read s)) NEWLINE);
    [destruct (startswith (next_read s) (ok_token s))|].
  - repeat split; eauto.
  - split; [split; [intros [s' H]; discriminate H | intros [_ H]; discriminate H]|].
    split; [right; unfold unexpected_exn; eauto|]. repeat split.
  - split; [split; [intros [s' H]; discriminate H | intros [H _]; discriminate H]|].
    split; [right; unfold timeout_exn; eauto|]. repeat split.
Qed.

(** [rstrip] takes a run of white space off the end and leaves none
    there. *)
Lemma lstrip_spec (data : bytes) :
  exists ws : bytes,
    data = ws ++ lstrip data /\
    Forall (fun c => is_space c = true) ws /\
    (forall (c : byte) (body : bytes), lstrip data = c :: body -> is_space c = false).
Proof.
  induction data as [|c data (ws & Hd & Hws & Hhd)]; simpl.
  - exists []. repeat split; [constructor | discriminate].
  - destruct (is_space c) eqn:Hc.
    + exists (c :: ws). split; [simpl; now rewrite <- Hd|].
      split; [now constructor | exact Hhd].
    + exists []. repeat split; [constructor|]. now intros c' body [= <- _].
Qed.

Lemma rstrip_spec (data : bytes) :
  exists ws : bytes,
    data = rstrip data ++ ws /\
    Forall (fun c => is_space c = true) ws /\
    (forall (body : bytes) (c : byte), rstrip data = body ++ [c] -> is_space c = false).
Proof.
  unfold rstrip. destruct (lstrip_spec (rev data)) as (ws & Hd & Hws & Hhd).
  exists (rev ws). split; [|split].
  - rewrite <- rev_app_distr, <- Hd. symmetry. apply rev_involutive.
  - now apply Forall_rev.
  - intros body c H. apply (Hhd c (rev body)).
    rewrite <- (rev_involutive (lstrip (rev data))), H, rev_app_distr.
    reflexivity.
Qed.

(** X6: [get_version] writes the [v] command once.  When the read it
    takes is a terminated frame, it prints the frame without its trailing
    white space (the newline at least goes) and returns, whatever the
    frame says; when the read is not terminated it raises the timeout
    error and prints nothing. *)
Theorem X6_get_version (s : state) :
  (bytes_eqb (slice_last (next_read s)) NEWLINE = true ->
   exists shown ws : bytes,
     get_version s
     = (Ok tt, mkState (tl (port_rx s)) (port_tx s ++ [SHOW_VERSION_COMMAND])
                       (stdout s ++ [[PBytes shown]])
                       (numeric_error_codes s) (echo_on s)) /\
     next_read s = shown ++ ws /\
     ws <> [] /\
     Forall (fun c => is_space c = true) ws /\
     (forall (body : bytes) (c : byte), shown = body ++ [c] -> is_space c = false))
  /\
  (bytes_eqb (slice_last (next_read s)) NEWLINE = false ->
   get_version s
   = (Raise (SerialSyncError "Newline not found - timeout"),
      mkState (tl (port_rx s)) (port_tx s ++ [SHOW_VERSION_COMMAND])
              (stdout s) (numeric_error_codes s) (echo_on s))).
Proof.
  rewrite get_version_step. cbv zeta. split; intros Hnl; rewrite Hnl; [|reflexivity].
  destruct (rstrip_spec (next_read s)) as (ws & Hd & Hws & Hlast).
  exists (rstrip (next_read s)), ws. repeat split; auto.
  intros ->. rewrite app_nil_r in Hd.
  apply bytes_eqb_eq in Hnl. unfold slice_last in Hnl.
  pose proof (firstn_skipn (List.length (next_read s) - 1) (next_read s)) as Hsplit.
  rewrite Hnl, Hd in Hsplit. symmetry in Hsplit.
  now apply Hlast in Hsplit.
Qed.

Lemma X6_get_version_witness :
  (exists shown ws : bytes,
      get_version (initial_state [frame "V2.1 "])
      = (Ok tt, mkState [] ([] ++ [SHOW_VERSION_COMMAND])
                        ([] ++ [[PBytes shown]]) false true) /\
      frame "V2.1 " = shown ++ ws /\
      ws <> [] /\
      Forall (fun c => is_space c = true) ws /\
      (forall (body : bytes) (c : byte), shown = body ++ [c] -> is_space c = false))
  /\
  get_version (initial_state [bytes_lit "V2"])
  = (Raise (SerialSyncError "Newline not found - timeout"),
     mkState [] ([] ++ [SHOW_VERSION_COMMAND]) [] false true).
Proof.
  split.
  - apply (X6_get_version (initial_state [frame "V2.1 "])). reflexivity.
  - apply (X6_get_version (initial_state [bytes_lit "V2"])). reflexivity.
Defined.

(** ** Draining the port *)

Lemma drained_split (rx : list bytes) :
  exists skipped : list bytes,
    Forall (fun d => bytes_in NEWLINE d = true) skipped /\
    ((rx = skipped /\ drained rx = []) \/
     (exists quiet : bytes,
         rx = skipped ++ quiet :: drained rx /\ bytes_in NEWLINE quiet = false)).
Proof.
  induction rx as [|d rx (skipped & Hsk & IH)]; simpl.
  - exists []. split; [constructor | now left].
  - destruct (bytes_in NEWLINE d) eqn:Hd.
    + exists (d :: skipped). split; [now constructor|].
      destruct IH as [[-> ->] | (quiet & Hrx & Hq)].
      * now left.
      * right. exists quiet. split; [simpl; now rewrite <- Hrx | exact Hq].
    + exists []. split; [constructor|]. right. exists d. now split.
Qed.

(** X7: [clear_replies] always returns, whatever is waiting, error
    notifications included.  It takes the reads that hold a newline, up
    to and with the first read that holds none (or up to silence), and
    changes nothing else: nothing is printed or written. *)
Theorem X7_clear_replies (s : state) :
  exists skipped left : list bytes,
    clear_replies s
    = (Ok tt, mkState left (port_tx s) (stdout s)
                      (numeric_error_codes s) (echo_on s)) /\
    Forall (fun d => exists pre post : bytes, d = pre ++ NEWLINE ++ post) skipped /\
    ((port_rx s = skipped /\ left = []) \/
     (exists quiet : bytes,
         port_rx s = skipped ++ quiet :: left /\
         ~ exists pre post : bytes, quiet = pre ++ NEWLINE ++ post)).
Proof.
  destruct (drained_split (port_rx s)) as (skipped & Hsk & Hrx).
  exists skipped, (drained (port_rx s)).
  split; [apply clear_replies_returns|]. split.
  - eapply Forall_impl; [|exact Hsk]. intros d Hd. now apply bytes_in_occurs.
  - destruct Hrx as [H | (quiet & Hrx & Hq)]; [now left|].
    right. exists quiet. split; [exact Hrx|].
    intros Hocc. apply bytes_in_occurs in Hocc. congruence.
Qed.

(** ** Echo commands in a row *)

Lemma set_echo_returns (on : bool) (s : state) :
  set_echo on s =
  (Ok tt, mkState (drained (port_rx s)) (port_tx s ++ [echo_command on])
                  (stdout s) (numeric_error_codes s) on).
Proof.
  destruct on; [apply set_echo_on_returns | apply set_echo_off_returns].
Qed.

Lemma last_cons_default {A} (l : list A) (a b d d' : A) :
  last (a :: l) d = last (b :: a :: l) d'.
Proof.
  cbn [last]. revert a. induction l as [|c l IH]; intros a; [reflexivity|].
  cbn [last] in *. apply IH.
Qed.

(** X8: any run of [set_echo_on] and [set_echo_off] calls returns; it
    writes one echo command per call, in order, leaves [echo_on] as the
    last call set it (unchanged when there was no call), and touches
    neither the console nor [numeric_error_codes]. *)
Theorem X8_echo_calls_compose (calls : list bool) :
  forall s : state,
  exists s' : state,
    run_all (map set_echo calls) s = (Ok tt, s') /\
    echo_on s' = last calls (echo_on s) /\
    port_tx s' = port_tx s ++ map echo_command calls /\
    stdout s' = stdout s /\
    numeric_error_codes s' = numeric_error_codes s.
Proof.
  induction calls as [|on calls IH]; intros s.
  - exists s. repeat split. simpl. now rewrite app_nil_r.
  - cbn [map run_all]. unfold bind. rewrite set_echo_returns.
    match goal with
    | |- context [run_all _ ?s1] => destruct (IH s1) as (s' & Hrun & He & Htx & Hout & Hn)
    end.
    exists s'. split; [exact Hrun|].
    cbn [echo_on port_tx stdout numeric_error_codes] in He, Htx, Hout, Hn.
    split; [|split; [|split]]; auto.
    + rewrite He. destruct calls as [|b calls]; [reflexivity|].
      apply last_cons_default.
    + rewrite Htx, <- app_assoc. reflexivity.
Qed.

(** ** More on the reset loop *)

(** X9: when a line that starts with [RST] is among the lines of the
    first poll, in any place, the loop is over after that one poll: the
    reset command has gone out once and the counter stands at 49. *)
Theorem X9_reset_on_first_poll (fuel : nat) (s : state) :
  existsb is_rst (fst (take_lines (port_rx s))) = true ->
  exists s' : state,
    reset_loop (S fuel) false 50 s = (Ok 49, s') /\
    port_tx s' = port_tx s ++ [RESET_STATE_COMMAND] /\
    port_rx s' = snd (take_lines (port_rx s)).
Proof.
  intros Hrst. cbn [reset_loop]. unfold bind.
  destruct (reset_poll_returns false 50 s) as [out ->].
  rewrite Hrst. cbn [fst snd orb]. rewrite reset_loop_found.
  eexists. split; [reflexivity|]. split; reflexivity.
Qed.

Lemma X9_reset_on_first_poll_witness :
  exists s' : state,
    reset_loop 1 false 50
      (initial_state [frame "garbage"; frame "RST"; frame "more"; []; frame "OK"])
    = (Ok 49, s') /\
    port_tx s' = [] ++ [RESET_STATE_COMMAND] /\
    port_rx s' = [frame "OK"].
Proof.
  apply (X9_reset_on_first_poll 0
           (initial_state [frame "garbage"; frame "RST"; frame "more"; [];
                           frame "OK"])).
  reflexivity.
Defined.

Lemma scan_lines_quiet (lines : list bytes) (found : bool) (s : state) :
  Forall (fun l => is_rst l = false) lines ->
  scan_lines lines found s = (Ok found, s).
Proof.
  induction 1 as [|l lines Hl _ IH]; simpl; [reflexivity|].
  fold (is_rst l). now rewrite Hl.
Qed.

Lemma reset_poll_quiet (count : Z) (s : state) :
  Forall (fun l => is_rst l = false) (port_rx s) ->
  reset_poll false count s
  = (Ok (false, next_count count),
     mkState (snd (take_lines (port_rx s)))
             (port_tx s ++ [RESET_STATE_COMMAND])
             (stdout s ++ (if count - 1 <=? 0 then [exhausted_message] else []))
             (numeric_error_codes s) (echo_on s)).
Proof.
  intros Hrx. destruct (take_lines_Forall _ _ Hrx) as [Hl _].
  destruct s as [rx tx out n e].
  unfold reset_poll, bind, write, sleep, ret, readlines, next_count, set_port_tx.
  cbn [port_rx port_tx stdout numeric_error_codes echo_on] in *.
  destruct (take_lines rx) as [lines rest]. cbn [fst snd] in *.
  rewrite (scan_lines_quiet lines false _ Hl).
  destruct (count - 1 <=? 0).
  - reflexivity.
  - unfold set_port_rx. cbn [port_rx port_tx stdout numeric_error_codes echo_on].
    now rewrite app_nil_r.
Qed.

Lemma reset_loop_warnings (polls : nat) :
  forall (count : Z) (s : state),
    1 <= count <= 200 ->
    Forall (fun l => is_rst l = false) (port_rx s) ->
    exists s' : state,
      reset_loop polls false count s = (Diverge, s') /\
      stdout s'
      = stdout s ++
        repeat exhausted_message
          (Z.to_nat (if Z.of_nat polls <? count then 0
                     else 1 + (Z.of_nat polls - count) / 200)).
Proof.
  induction polls as [|polls IH]; intros count s Hcount Hrx.
  - exists s. split; [reflexivity|].
    destruct (Z.ltb_spec (Z.of_nat 0) count); [|lia]. simpl. now rewrite app_nil_r.
  - cbn [reset_loop]. unfold bind. rewrite (reset_poll_quiet count s Hrx).
    cbn [fst snd].
    destruct (take_lines_Forall _ _ Hrx) as [_ Hrest].
    assert (Hnext : 1 <= next_count count <= 200)
      by (unfold next_count; destruct (Z.leb_spec (count - 1) 0); lia).
    match goal with
    | |- context [reset_loop polls false _ ?s1] =>
        destruct (IH (next_count count) s1 Hnext Hrest) as (s' & Hrun & Hout)
    end.
    exists s'. split; [exact Hrun|]. rewrite Hout. cbn [stdout].
    rewrite <- app_assoc. f_equal. unfold next_count.
    destruct (Z.leb_spec (count - 1) 0) as [Hz|Hz].
    + assert (count = 1) by lia. subst count.
      destruct (Z.ltb_spec (Z.of_nat (S polls)) 1); [lia|].
      replace (Z.to_nat (1 + (Z.of_nat (S polls) - 1) / 200))
        with (S (Z.to_nat ((Z.of_nat (S polls) - 1) / 200)))
        by (assert (0 <= (Z.of_nat (S polls) - 1) / 200)
              by (apply Z.div_pos; lia); lia).
      cbn [repeat app]. do 2 f_equal.
      replace (Z.of_nat (S polls) - 1) with (Z.of_nat polls) by lia.
      destruct (Z.ltb_spec (Z.of_nat polls) 200).
      * now rewrite Z.div_small by lia.
      * replace (Z.of_nat polls) with ((Z.of_nat polls - 200) + 1 * 200) at 2 by lia.
        rewrite Z.div_add by lia. f_equal. lia.
    + cbn [app].
      destruct (Z.ltb_spec (Z.of_nat polls) (count - 1));
        destruct (Z.ltb_spec (Z.of_nat (S polls)) count); try lia; [reflexivity|].
      replace (Z.of_nat (S polls) - count) with (Z.of_nat polls - (count - 1))
        by lia.
      reflexivity.
Qed.

(** X10: against a device that sends no line starting with [RST], the
    reset loop prints its exhaustion message with the 50th poll and then
    with every 200th poll after it, and nothing else: after [polls]
    polls the message stands [0] times when [polls < 50] and
    [1 + (polls - 50) / 200] times otherwise. *)
Theorem X10_exhaustion_messages (polls : nat) (s : state) :
  Forall (fun l => is_rst l = false) (port_rx s) ->
  exists s' : state,
    reset_loop polls false 50 s = (Diverge, s') /\
    stdout s' = stdout s ++ repeat exhausted_message (warnings polls).
Proof.
  intros Hrx. apply (reset_loop_warnings polls 50 s); [lia | exact Hrx].
Qed.

Lemma X10_exhaustion_messages_witness :
  exists s' : state,
    reset_loop 450 false 50 (initial_state [frame "noise"; []; frame "OK"])
    = (Diverge, s') /\
    stdout s' = [] ++ repeat exhausted_message 3.
Proof.
  apply (X10_exhaustion_messages 450
           (initial_state [frame "noise"; []; frame "OK"])).
  repeat constructor.
Defined.

(** ** The reset sequence as a whole *)

(** What the reset loop can do: return or run out of fuel, never raise;
    it writes the reset command once per poll and leaves the flags. *)
Lemma reset_loop_footprint (fuel : nat) :
  forall (found : bool) (count : Z) (s : state),
  exists (o : outcome Z) (s' : state) (n : nat),
    reset_loop fuel found count s = (o, s') /\
    (n <= fuel)%nat /\
    port_tx s' = port_tx s ++ repeat RESET_STATE_COMMAND n /\
    numeric_error_codes s' = numeric_error_codes s /\
    echo_on s' = echo_on s /\
    ((exists c : Z, o = Ok c /\ (found = false -> (1 <= n)%nat)) \/
     (o = Diverge /\ n = fuel)).
Proof.
  induction fuel as [|fuel IH]; intros found count s.
  - destruct found.
    + exists (Ok count), s, 0%nat. simpl. rewrite app_nil_r.
      repeat split; auto. left. exists count. split; [reflexivity | discriminate].
    + exists Diverge, s, 0%nat. simpl. rewrite app_nil_r. repeat split; auto.
  - destruct found.
    + exists (Ok count), s, 0%nat. simpl. rewrite app_nil_r.
      repeat split; auto; [lia|]. left. exists count. split; [reflexivity | discriminate].
    + cbn [reset_loop]. unfold bind.
      destruct (reset_poll_returns false count s) as [out ->].
      cbn [fst snd].
      match goal with
      | |- context [reset_loop fuel ?f ?c ?s1] =>
          destruct (IH f c s1) as (o & s' & n & Hrun & Hn & Htx & Hnum & He & Ho)
      end.
      exists o, s', (S n). split; [exact Hrun|].
      cbn [port_tx numeric_error_codes echo_on] in Htx, Hnum, He.
      split; [lia|]. split; [rewrite Htx, <- app_assoc; reflexivity|].
      split; [exact Hnum|]. split; [exact He|].
      destruct Ho as [(c & -> & _) | [-> ->]].
      * left. exists c. split; [reflexivity | lia].
      * now right.
Qed.

Lemma reset_arduino_outcomes (fuel : nat) (s : state) :
  exists (o : outcome unit) (s' : state),
    reset_arduino fuel s = (o, s') /\
    numeric_error_codes s' = numeric_error_codes s /\
    ((o = Ok tt /\ echo_on s' = false /\
      exists n : nat,
        (1 <= n <= fuel)%nat /\
        port_tx s'
        = port_tx s ++ [CONTROL_C_ETX; CONTROL_X_CAN]
          ++ repeat RESET_STATE_COMMAND n
          ++ [ECHO_OFF_COMMAND; ECHO_OFF_COMMAND; OK_COMMAND;
              SHOW_VERSION_COMMAND; OK_COMMAND])
     \/
     ((exists msg : string, o = Raise (SerialSyncError msg)) /\
      echo_on s' = false /\
      exists (n : nat) (more : list bytes),
        (1 <= n <= fuel)%nat /\
        port_tx s'
        = port_tx s ++ [CONTROL_C_ETX; CONTROL_X_CAN]
          ++ repeat RESET_STATE_COMMAND n
          ++ [ECHO_OFF_COMMAND; ECHO_OFF_COMMAND; OK_COMMAND] ++ more)
     \/
     (o = Diverge /\ echo_on s' = echo_on s /\
      port_tx s'
      = port_tx s ++ [CONTROL_C_ETX; CONTROL_X_CAN]
        ++ repeat RESET_STATE_COMMAND fuel)).
Proof.
  unfold reset_arduino.
  unfold bind at 1. unfold write at 1. unfold bind at 1. unfold sleep at 1, ret at 1.
  unfold bind at 1. unfold write at 1. unfold bind at 1. unfold sleep at 1, ret at 1.
  unfold bind at 1.
  match goal with
  | |- context [reset_loop fuel false 50 ?s0] =>
      destruct (reset_loop_footprint fuel false 50 s0)
        as (o & s1 & n & Hrun & Hn & Htx & Hnum & He & Ho)
  end.
  rewrite Hrun.
  cbn [set_port_tx port_tx numeric_error_codes echo_on] in Htx, Hnum, He.
  assert (Htx1 : port_tx s1
                 = port_tx s ++ [CONTROL_C_ETX; CONTROL_X_CAN]
                   ++ repeat RESET_STATE_COMMAND n)
    by (rewrite Htx, <- !app_assoc; reflexivity).
  clear Htx.
  destruct Ho as [(c & -> & Hone) | [-> ->]].
  2:{ exists Diverge, s1. split; [reflexivity|]. split; [exact Hnum|].
      right. right. auto. }
  specialize (Hone eq_refl).
  unfold bind at 1. rewrite clear_replies_returns.
  unfold bind at 1. rewrite set_echo_off_returns.
  unfold bind at 1. rewrite set_echo_off_returns.
  cbn [set_port_rx port_rx port_tx stdout numeric_error_codes echo_on].
  unfold bind at 1. rewrite do_ok_test_step. cbv zeta.
  cbn [port_rx port_tx stdout numeric_error_codes echo_on].
  match goal with
  | |- context [if ?b then (if ?b2 then _ else _) else (Raise timeout_exn, _)] =>
      destruct b; [destruct b2|]
  end.
  2,3: eexists; eexists; (split; [reflexivity|]); (split; [exact Hnum|]);
       right; left; (split; [unfold unexpected_exn, timeout_exn; eauto|]);
       (split; [reflexivity|]); exists n, []; (split; [lia|]);
       cbn [port_tx]; rewrite Htx1, <- !app_assoc; reflexivity.
  unfold bind at 1. rewrite get_version_step. cbv zeta.
  cbn [port_rx port_tx stdout numeric_error_codes echo_on].
  match goal with
  | |- context [if ?b then _ else (Raise timeout_exn, _)] => destruct b
  end.
  2: eexists; eexists; (split; [reflexivity|]); (split; [exact Hnum|]);
     right; left; (split; [unfold timeout_exn; eauto|]);
     (split; [reflexivity|]); exists n, [SHOW_VERSION_COMMAND]; (split; [lia|]);
     cbn [port_tx]; rewrite Htx1, <- !app_assoc; reflexivity.
  unfold bind at 1. unfold set_numeric_error_codes, discard_exn, ret at 1.
  rewrite do_ok_test_step. cbv zeta.
  cbn [port_rx port_tx stdout numeric_error_codes echo_on].
  match goal with
  | |- context [if ?b then (if ?b2 then _ else _) else (Raise timeout_exn, _)] =>
      destruct b; [destruct b2|]
  end.
  2,3: eexists; eexists; (split; [reflexivity|]); (split; [exact Hnum|]);
       right; left; (split; [unfold unexpected_exn, timeout_exn; eauto|]);
       (split; [reflexivity|]);
       exists n, [SHOW_VERSION_COMMAND; OK_COMMAND]; (split; [lia|]);
       cbn [port_tx]; rewrite Htx1, <- !app_assoc; reflexivity.
  eexists. eexists. split; [reflexivity|]. split; [exact Hnum|].
  left. split; [reflexivity|]. split; [reflexivity|].
  exists n. split; [lia|].
  cbn [port_tx]. rewrite Htx1, <- !app_assoc. reflexivity.
Qed.

(** X11: when [reset_arduino] returns, [echo_on] is false,
    [numeric_error_codes] is as it was, and what it wrote is the two
    control bytes, the reset command once per poll (one poll at least),
    echo-off twice, the acknowledgement test, the version query and the
    acknowledgement test again, in that order and nothing else. *)
Theorem X11_reset_arduino_success (fuel : nat) (s s' : state) :
  reset_arduino fuel s = (Ok tt, s') ->
  echo_on s' = false /\
  numeric_error_codes s' = numeric_error_codes s /\
  exists n : nat,
    (1 <= n <= fuel)%nat /\
    port_tx s'
    = port_tx s ++ [CONTROL_C_ETX; CONTROL_X_CAN]
      ++ repeat RESET_STATE_COMMAND n
      ++ [ECHO_OFF_COMMAND; ECHO_OFF_COMMAND; OK_COMMAND;
          SHOW_VERSION_COMMAND; OK_COMMAND].
Proof.
  intros Hrun.
  destruct (reset_arduino_outcomes fuel s) as (o & s1 & Hrun' & Hnum & Hcases).
  rewrite Hrun in Hrun'. injection Hrun' as <- <-.
  destruct Hcases as [(_ & He & Htx) | [([msg Hmsg] & _) | (Hd & _)]];
    [auto | discriminate Hmsg | discriminate Hd].
Qed.

Lemma X11_reset_arduino_success_witness :
  echo_on (snd (reset_arduino 3 answering_device)) = false /\
  numeric_error_codes (snd (reset_arduino 3 answering_device))
  = numeric_error_codes answering_device /\
  exists n : nat,
    (1 <= n <= 3)%nat /\
    port_tx (snd (reset_arduino 3 answering_device))
    = port_tx answering_device ++ [CONTROL_C_ETX; CONTROL_X_CAN]
      ++ repeat RESET_STATE_COMMAND n
      ++ [ECHO_OFF_COMMAND; ECHO_OFF_COMMAND; OK_COMMAND;
          SHOW_VERSION_COMMAND; OK_COMMAND].
Proof.
  apply (X11_reset_arduino_success 3 answering_device
           (snd (reset_arduino 3 answering_device))).
  vm_compute. reflexivity.
Defined.

(** X12: when [reset_arduino] raises, the exception is a
    [SerialSyncError] (never the [MajorError] of the stubs), and it comes
    from the acknowledgement tests or the version query: by then the
    polling is over, echo-off has gone out twice and [echo_on] is false.
    [numeric_error_codes] is as it was. *)
Theorem X12_reset_arduino_failure (fuel : nat) (s s' : state) (e : exn) :
  reset_arduino fuel s = (Raise e, s') ->
  (exists msg : string, e = SerialSyncError msg) /\
  echo_on s' = false /\
  numeric_error_codes s' = numeric_error_codes s /\
  exists (n : nat) (more : list bytes),
    (1 <= n <= fuel)%nat /\
    port_tx s'
    = port_tx s ++ [CONTROL_C_ETX; CONTROL_X_CAN]
      ++ repeat RESET_STATE_COMMAND n
      ++ [ECHO_OFF_COMMAND; ECHO_OFF_COMMAND; OK_COMMAND] ++ more.
Proof.
  intros Hrun.
  destruct (reset_arduino_outcomes fuel s) as (o & s1 & Hrun' & Hnum & Hcases).
  rewrite Hrun in Hrun'. injection Hrun' as <- <-.
  destruct Hcases as [(Hok & _) | [([msg Hmsg] & He & Htx) | (Hd & _)]];
    [discriminate Hok | | discriminate Hd].
  injection Hmsg as ->. eauto.
Qed.

Lemma X12_reset_arduino_failure_witness :
  (exists msg : string,
      SerialSyncError "Newline not found - timeout" = SerialSyncError msg) /\
  echo_on (snd (reset_arduino 3 device_lost_after_ok)) = false /\
  numeric_error_codes (snd (reset_arduino 3 device_lost_after_ok))
  = numeric_error_codes device_lost_after_ok /\
  exists (n : nat) (more : list bytes),
    (1 <= n <= 3)%nat /\
    port_tx (snd (reset_arduino 3 device_lost_after_ok))
    = port_tx device_lost_after_ok ++ [CONTROL_C_ETX; CONTROL_X_CAN]
      ++ repeat RESET_STATE_COMMAND n
      ++ [ECHO_OFF_COMMAND; ECHO_OFF_COMMAND; OK_COMMAND] ++ more.
Proof.
  apply (X12_reset_arduino_failure 3 device_lost_after_ok
           (snd (reset_arduino 3 device_lost_after_ok))
           (SerialSyncError "Newline not found - timeout")).
  vm_compute. reflexivity.
Defined.

(** X15: as long as no line that starts with [RST] arrives,
    [reset_arduino] does not get past its polling loop: after any number
    of polls it is still polling, having written the two control bytes,
    the reset command once per poll and nothing else, no echo command in
    particular, and the flags are as they were. *)
Theorem X15_reset_arduino_waits_for_rst (fuel : nat) (s : state) :
  Forall (fun l => is_rst l = false) (port_rx s) ->
  exists s' : state,
    reset_arduino fuel s = (Diverge, s') /\
    port_tx s'
    = port_tx s ++ [CONTROL_C_ETX; CONTROL_X_CAN]
      ++ repeat RESET_STATE_COMMAND fuel /\
    echo_on s' = echo_on s /\
    numeric_error_codes s' = numeric_error_codes s.
Proof.
  intros Hrx.
  destruct (reset_arduino_outcomes fuel s) as (o & s1 & Hrun & Hnum & Hcases).
  assert (Hd : o = Diverge).
  { revert Hrun. unfold reset_arduino.
    unfold bind at 1. unfold write at 1. unfold bind at 1. unfold sleep at 1, ret at 1.
    unfold bind at 1. unfold write at 1. unfold bind at 1. unfold sleep at 1, ret at 1.
    unfold bind at 1.
    match goal with
    | |- context [reset_loop fuel false 50 ?s0] =>
        destruct (reset_loop_keeps_polling fuel 50 s0 Hrx) as (s2 & -> & _)
    end.
    now intros [= <- _]. }
  subst o. exists s1. split; [exact Hrun|].
  destruct Hcases as [(Hok & _) | [([msg Hmsg] & _) | (_ & He & Htx)]];
    [discriminate Hok | discriminate Hmsg | auto].
Qed.

Lemma X15_reset_arduino_waits_for_rst_witness :
  exists s' : state,
    reset_arduino 4 (initial_state [frame "OK"; []; frame "@Error:5"])
    = (Diverge, s') /\
    port_tx s'
    = [] ++ [CONTROL_C_ETX; CONTROL_X_CAN] ++ repeat RESET_STATE_COMMAND 4 /\
    echo_on s' = true /\
    numeric_error_codes s' = false.
Proof.
  apply (X15_reset_arduino_waits_for_rst 4
           (initial_state [frame "OK"; []; frame "@Error:5"])).
  repeat constructor.
Defined.
